(** * Factory Method and Abstract Factory: the notification and report examples

    A shallow embedding of [src/factory-method/index.ts].  The file holds two
    TypeScript modules, one after the other: the notification example
    (Factory Method) and the report example (Abstract Factory).  Each module
    has a scope of its own, so both may declare a function [someClientCode];
    they are kept apart here in the modules [FactoryMethod] and
    [AbstractFactory].

    The code is modelled at the level at which it runs: objects live in a
    heap and are told apart by their address, a method call is resolved at
    run time along the [extends] chain of the receiver's class, a method that
    does not resolve raises a [TypeError], and [console.log] appends a line
    to the console.  Method bodies are Rocq functions in the monad [JS]. *)

From Stdlib Require Import String List Arith Lia Bool Permutation FinFun.
Import ListNotations.
Local Open Scope string_scope.
Local Open Scope list_scope.

(** ** Classes, interfaces and method names *)

(** Every [class] declaration of the two modules, in source order. *)
Inductive Class : Type :=
  | EmailNotification
  | SMSNotification
  | PushNotification
  | NotificationFactory
  | EmailNotificationFactory
  | SMSNotificationFactory
  | PushNotificationFactory
  | PDFReport
  | SalesPDFReport
  | HRPDFReport
  | ExcelReport
  | SalesExcelReport
  | HRExcelReport
  | HTMLReport
  | SalesHTMLReport
  | HRHTMLReport
  | AbstractReportFactory
  | SalesReportFactory
  | HRReportFactory.

Inductive Interface : Type :=
  | INotification.

(** Every method name that is declared or called. *)
Inductive Method : Type :=
  | sendNotification
  | createNotification
  | generate
  | createPDFReport
  | createExcelReport
  | createHTMLReport.

(** [class C extends P] *)
Definition extends (c : Class) : option Class :=
  match c with
  | EmailNotificationFactory => Some NotificationFactory
  | SMSNotificationFactory => Some NotificationFactory
  | PushNotificationFactory => Some NotificationFactory
  | SalesPDFReport => Some PDFReport
  | HRPDFReport => Some PDFReport
  | SalesExcelReport => Some ExcelReport
  | HRExcelReport => Some ExcelReport
  | SalesHTMLReport => Some HTMLReport
  | HRHTMLReport => Some HTMLReport
  | SalesReportFactory => Some AbstractReportFactory
  | HRReportFactory => Some AbstractReportFactory
  | _ => None
  end.

(** [class C implements I] *)
Definition implements (c : Class) : option Interface :=
  match c with
  | EmailNotification => Some INotification
  | SMSNotification => Some INotification
  | PushNotification => Some INotification
  | _ => None
  end.

(** [abstract class C] *)
Definition abstract_class (c : Class) : bool :=
  match c with
  | NotificationFactory => true
  | PDFReport => true
  | ExcelReport => true
  | HTMLReport => true
  | AbstractReportFactory => true
  | _ => false
  end.

(** [abstract m(): T;] inside class [c].  An abstract method has no body
    and leaves nothing behind at run time. *)
Definition abstract_method (c : Class) (m : Method) : bool :=
  match c, m with
  | NotificationFactory, createNotification => true
  | PDFReport, generate => true
  | ExcelReport, generate => true
  | HTMLReport, generate => true
  | AbstractReportFactory, createPDFReport => true
  | AbstractReportFactory, createExcelReport => true
  | AbstractReportFactory, createHTMLReport => true
  | _, _ => false
  end.

(** ** The run-time state *)

(** A value is [undefined] (what a [void] method returns) or a reference to
    an object of the heap. *)
Inductive Value : Type :=
  | undefined
  | Ref (address : nat).

(** No class declares a field, so an object is its class; its identity is
    its address, the position at which [new] put it. *)
Record World : Type := mkWorld {
  heap : list Class;
  console : list string
}.

Inductive Error : Type :=
  | TypeError (m : Method).

(** How a computation ends: normally with a value, with an exception, or
    not within the call depth that was granted. *)
Inductive Completion (A : Type) : Type :=
  | Normal (a : A) (w : World)
  | Throw (e : Error) (w : World)
  | OutOfFuel.

Arguments Normal {A} a w.
Arguments Throw {A} e w.
Arguments OutOfFuel {A}.

Definition JS (A : Type) : Type := World -> Completion A.

Definition ret {A : Type} (a : A) : JS A := fun w => Normal a w.

Definition bind {A B : Type} (c : JS A) (k : A -> JS B) : JS B :=
  fun w =>
    match c w with
    | Normal a w' => k a w'
    | Throw e w' => Throw e w'
    | OutOfFuel => OutOfFuel
    end.

Definition throw {A : Type} (e : Error) : JS A := fun w => Throw e w.

Declare Scope js_scope.
Delimit Scope js_scope with js.
Notation "x <- c ;; k" := (bind c (fun x => k))
  (at level 61, c at next level, right associativity) : js_scope.
Notation "c ;; k" := (bind c (fun _ => k))
  (at level 61, right associativity) : js_scope.
Local Open Scope js_scope.

(** [console.log(line)] *)
Definition console_log (line : string) : JS Value :=
  fun w => Normal undefined (mkWorld (heap w) (console w ++ [line])).

(** [new C()]: no class has a constructor, so the object is only allocated;
    it gets the first free address. *)
Definition new (c : Class) : JS Value :=
  fun w => Normal (Ref (length (heap w))) (mkWorld (heap w ++ [c]) (console w)).

(** The class of the object a value refers to, if it refers to one. *)
Definition class_of (w : World) (v : Value) : option Class :=
  match v with
  | undefined => None
  | Ref a => nth_error (heap w) a
  end.

(** ** Methods *)

Definition Body : Type := Value -> JS Value.

Section Methods.

(** [call receiver m] stands for [receiver.m()] inside a method body. *)
Variable call : Value -> Method -> JS Value.

(** The methods with a body, class by class; the first argument of a body
    is [this]. *)
Definition own_method (c : Class) (m : Method) : option Body :=
  match c, m with
  | EmailNotification, sendNotification => Some (fun this =>
      console_log "Email notification sent")
  | SMSNotification, sendNotification => Some (fun this =>
      console_log "SMS notification sent")
  | PushNotification, sendNotification => Some (fun this =>
      console_log "Push notification sent")
  | NotificationFactory, sendNotification => Some (fun this =>
      notification <- call this createNotification ;;
      call notification sendNotification ;;
      console_log "Notification registered")
  | EmailNotificationFactory, createNotification => Some (fun this =>
      new EmailNotification)
  | SMSNotificationFactory, createNotification => Some (fun this =>
      new SMSNotification)
  | PushNotificationFactory, createNotification => Some (fun this =>
      new PushNotification)
  | SalesPDFReport, generate => Some (fun this =>
      console_log "Sales PDF report generated")
  | HRPDFReport, generate => Some (fun this =>
      console_log "HR PDF report generated")
  | SalesExcelReport, generate => Some (fun this =>
      console_log "Sales Excel report generated")
  | HRExcelReport, generate => Some (fun this =>
      console_log "HR Excel report generated")
  | SalesHTMLReport, generate => Some (fun this =>
      console_log "Sales HTML report generated")
  | HRHTMLReport, generate => Some (fun this =>
      console_log "HR HTML report generated")
  | SalesReportFactory, createPDFReport => Some (fun this =>
      new SalesPDFReport)
  | SalesReportFactory, createExcelReport => Some (fun this =>
      new SalesExcelReport)
  | SalesReportFactory, createHTMLReport => Some (fun this =>
      new SalesHTMLReport)
  | HRReportFactory, createPDFReport => Some (fun this =>
      new HRPDFReport)
  | HRReportFactory, createExcelReport => Some (fun this =>
      new HRExcelReport)
  | HRReportFactory, createHTMLReport => Some (fun this =>
      new HRHTMLReport)
  | _, _ => None
  end.

(** Method resolution: the class's own method, else the one of the class
    it extends, at most [depth] classes up. *)
Fixpoint lookup (depth : nat) (c : Class) (m : Method) : option Body :=
  match own_method c m with
  | Some body => Some body
  | None =>
      match depth with
      | 0 => None
      | S depth' =>
          match extends c with
          | Some parent => lookup depth' parent m
          | None => None
          end
      end
  end.

End Methods.

(** No [extends] chain is longer than the number of classes. *)
Definition class_count : nat := 19.

(** [receiver.m()].  [fuel] bounds the depth of nested method calls.  A
    receiver that is no object, and a method that does not resolve, raise a
    [TypeError]. *)
Fixpoint call (fuel : nat) (receiver : Value) (m : Method) : JS Value :=
  match fuel with
  | 0 => fun _ => OutOfFuel
  | S fuel' => fun w =>
      match class_of w receiver with
      | None => throw (TypeError m) w
      | Some c =>
          match lookup (call fuel') class_count c m with
          | None => throw (TypeError m) w
          | Some body => body receiver w
          end
      end
  end.

(** ** The notification module *)

Module FactoryMethod.
Section Client.
Variable fuel : nat.

Definition someClientCode (factory : Value) : JS Value :=
  call fuel factory sendNotification ;;
  ret undefined.

(** The statements at the top level of the module. *)
Definition usage : JS Value :=
  (factory <- new EmailNotificationFactory ;; someClientCode factory) ;;
  (factory <- new SMSNotificationFactory ;; someClientCode factory) ;;
  (factory <- new PushNotificationFactory ;; someClientCode factory).

End Client.
End FactoryMethod.

(** ** The report module *)

Module AbstractFactory.
Section Client.
Variable fuel : nat.

Definition someClientCode (factory : Value) : JS Value :=
  pdfReport <- call fuel factory createPDFReport ;;
  call fuel pdfReport generate ;;
  excelReport <- call fuel factory createExcelReport ;;
  call fuel excelReport generate ;;
  htmlReport <- call fuel factory createHTMLReport ;;
  call fuel htmlReport generate ;;
  ret undefined.

(** The statements at the top level of the module. *)
Definition usage : JS Value :=
  (factory <- new SalesReportFactory ;; someClientCode factory) ;;
  (factory <- new HRReportFactory ;; someClientCode factory).

End Client.
End AbstractFactory.

(** The two modules one after the other, in the order of the source. *)
Definition demonstration (fuel : nat) : JS Value :=
  FactoryMethod.usage fuel ;; AbstractFactory.usage fuel.

(** ** Vocabulary of the specification *)

(** The department a report class or a report factory belongs to, and the
    report family (one per abstract report class). *)
Inductive Group : Type :=
  | Sales
  | HR.

Inductive Family : Type :=
  | PDF
  | Excel
  | HTML.

Definition other (g : Group) : Group :=
  match g with
  | Sales => HR
  | HR => Sales
  end.

Definition group_name (g : Group) : string :=
  match g with
  | Sales => "Sales"
  | HR => "HR"
  end.

(** A line is tagged with a group when it starts with the group's name
    followed by a space. *)
Definition tagged (g : Group) (line : string) : bool :=
  String.prefix (group_name g ++ " ") line.

(** The group a class carries in its name. *)
Definition group_of (c : Class) : option Group :=
  match c with
  | SalesPDFReport | SalesExcelReport | SalesHTMLReport
  | SalesReportFactory => Some Sales
  | HRPDFReport | HRExcelReport | HRHTMLReport
  | HRReportFactory => Some HR
  | _ => None
  end.

(** The family of a report class: the abstract class it extends. *)
Definition family_of (c : Class) : option Family :=
  match extends c with
  | Some PDFReport => Some PDF
  | Some ExcelReport => Some Excel
  | Some HTMLReport => Some HTML
  | _ => None
  end.

Definition report_factory (g : Group) : Class :=
  match g with
  | Sales => SalesReportFactory
  | HR => HRReportFactory
  end.

Definition report_class (g : Group) (f : Family) : Class :=
  match g, f with
  | Sales, PDF => SalesPDFReport
  | Sales, Excel => SalesExcelReport
  | Sales, HTML => SalesHTMLReport
  | HR, PDF => HRPDFReport
  | HR, Excel => HRExcelReport
  | HR, HTML => HRHTMLReport
  end.

(** The creation operation of a family. *)
Definition create (f : Family) : Method :=
  match f with
  | PDF => createPDFReport
  | Excel => createExcelReport
  | HTML => createHTMLReport
  end.

(** The concrete creators of the notification module. *)
Definition notification_factory (c : Class) : bool :=
  match extends c with
  | Some NotificationFactory => true
  | _ => false
  end.

(** The creation operations of a concrete creator: the abstract methods of
    the factory class it extends. *)
Definition creation_operation (c : Class) (m : Method) : bool :=
  match extends c with
  | Some NotificationFactory => abstract_method NotificationFactory m
  | Some AbstractReportFactory => abstract_method AbstractReportFactory m
  | _ => false
  end.

(** The operation of a product: [sendNotification] for a class that
    implements [INotification], [generate] for a class that extends one of
    the abstract report classes. *)
Definition product_operation (c : Class) : option Method :=
  match implements c, family_of c with
  | Some INotification, _ => Some sendNotification
  | None, Some _ => Some generate
  | None, None => None
  end.

(** The product a creator's name promises for each of its creation
    operations (Email factory, Email notification; Sales factory, Sales
    reports; and so on). *)
Definition implied_product (c : Class) (m : Method) : option Class :=
  match c, m with
  | EmailNotificationFactory, createNotification => Some EmailNotification
  | SMSNotificationFactory, createNotification => Some SMSNotification
  | PushNotificationFactory, createNotification => Some PushNotification
  | SalesReportFactory, createPDFReport => Some SalesPDFReport
  | SalesReportFactory, createExcelReport => Some SalesExcelReport
  | SalesReportFactory, createHTMLReport => Some SalesHTMLReport
  | HRReportFactory, createPDFReport => Some HRPDFReport
  | HRReportFactory, createExcelReport => Some HRExcelReport
  | HRReportFactory, createHTMLReport => Some HRHTMLReport
  | _, _ => None
  end.

(** Whether class [c] declares method [m], with a body or abstract. *)
Definition declares (c : Class) (m : Method) : bool :=
  match own_method (call 0) c m with
  | Some _ => true
  | None => abstract_method c m
  end.

(** Whether an object of class [c] offers method [m]: some class on its
    [extends] chain declares it. *)
Fixpoint offers (depth : nat) (c : Class) (m : Method) : bool :=
  declares c m ||
  match depth with
  | 0 => false
  | S depth' =>
      match extends c with
      | Some parent => offers depth' parent m
      | None => false
      end
  end.

(** The line a product of class [c] prints, found by running its operation
    on a lone object of that class. *)
Definition output_line (c : Class) : option string :=
  match product_operation c with
  | None => None
  | Some m =>
      match call 1 (Ref 0) m (mkWorld [c] []) with
      | Normal _ w =>
          match console w with
          | [line] => Some line
          | _ => None
          end
      | _ => None
      end
  end.

(** The classes, and among them the product classes: those with a product
    operation. *)
Definition all_classes : list Class :=
  [EmailNotification; SMSNotification; PushNotification;
   NotificationFactory; EmailNotificationFactory; SMSNotificationFactory;
   PushNotificationFactory;
   PDFReport; SalesPDFReport; HRPDFReport;
   ExcelReport; SalesExcelReport; HRExcelReport;
   HTMLReport; SalesHTMLReport; HRHTMLReport;
   AbstractReportFactory; SalesReportFactory; HRReportFactory].

Definition is_product (c : Class) : bool :=
  match product_operation c with
  | Some _ => true
  | None => false
  end.

Definition products : list Class := filter is_product all_classes.

(** The line the report of group [g] and family [f] prints. *)
Definition report_line (g : Group) (f : Family) : string :=
  match output_line (report_class g f) with
  | Some line => line
  | None => ""
  end.

(** One create-then-generate step of the report client, and the steps for
    a list of families in the order of the list. *)
Definition create_then_generate (fuel : nat) (factory : Value) (f : Family)
  : JS Value :=
  report <- call fuel factory (create f) ;;
  call fuel report generate.

Fixpoint in_order (fuel : nat) (factory : Value) (order : list Family)
  : JS Value :=
  match order with
  | [] => ret undefined
  | f :: rest =>
      create_then_generate fuel factory f ;; in_order fuel factory rest
  end.

(** [n] evaluations of the same expression, one after the other; the
    results are collected in order. *)
Fixpoint repeatedly (n : nat) (op : JS Value) : JS (list Value) :=
  match n with
  | 0 => ret []
  | S n' =>
      v <- op ;;
      vs <- repeatedly n' op ;;
      ret (v :: vs)
  end.

(** ** Declared return types and the shape of a finished call *)

(** The return type a method is declared with: [void], an interface, or an
    abstract class. *)
Inductive ReturnType : Type :=
  | Void
  | OfInterface (i : Interface)
  | OfClass (c : Class).

(** The return types as the source declares them; a method name has the
    same return type in every class that declares it. *)
Definition return_type (m : Method) : ReturnType :=
  match m with
  | sendNotification => Void
  | createNotification => OfInterface INotification
  | generate => Void
  | createPDFReport => OfClass PDFReport
  | createExcelReport => OfClass ExcelReport
  | createHTMLReport => OfClass HTMLReport
  end.

(** A class conforms to a return type when it implements the interface or
    extends the abstract class. *)
Definition class_conforms (c : Class) (t : ReturnType) : Prop :=
  match t with
  | Void => False
  | OfInterface i => implements c = Some i
  | OfClass b => extends c = Some b
  end.

(** A value conforms to a return type in a state: [undefined] for [void],
    else a reference to an object of a conforming class. *)
Definition conforms (w : World) (v : Value) (t : ReturnType) : Prop :=
  match t with
  | Void => v = undefined
  | _ => exists c, class_of w v = Some c /\ class_conforms c t
  end.

(** [grows w w']: state [w'] is [w] with objects added at the end of the
    heap and lines added at the end of the console. *)
Definition grows (w w' : World) : Prop :=
  exists (objects : list Class) (lines : list string),
    heap w' = heap w ++ objects /\ console w' = console w ++ lines.

(** The ways a call of method [m] from state [w] can end. *)
Inductive shape (w : World) (m : Method) : Completion Value -> Prop :=
  | shape_printed (line : string) :
      return_type m = Void ->
      shape w m (Normal undefined (mkWorld (heap w) (console w ++ [line])))
  | shape_created (p : Class) :
      class_conforms p (return_type m) ->
      abstract_class p = false ->
      shape w m (Normal (Ref (length (heap w)))
                        (mkWorld (heap w ++ [p]) (console w)))
  | shape_dispatched (p : Class) (line : string) :
      m = sendNotification ->
      shape w m (Normal undefined
                   (mkWorld (heap w ++ [p])
                            (console w ++ [line; "Notification registered"])))
  | shape_raised (m' : Method) :
      m' = m \/ (m = sendNotification /\ m' = createNotification) ->
      shape w m (Throw (TypeError m') w)
  | shape_unfinished :
      shape w m OutOfFuel.

(** * Properties *)

(** ** The heap *)

Lemma nth_error_fresh (h : list Class) (c : Class) :
  nth_error (h ++ [c]) (length h) = Some c.
Proof.
  rewrite nth_error_app2 by lia.
  now rewrite Nat.sub_diag.
Qed.

Lemma nth_error_kept (h : list Class) (c k : Class) (a : nat) :
  nth_error h a = Some k -> nth_error (h ++ [c]) a = Some k.
Proof.
  intros Hk.
  rewrite nth_error_app1; [exact Hk|].
  apply nth_error_Some. congruence.
Qed.

Lemma nth_error_grown (h more : list Class) (k : Class) (a : nat) :
  nth_error h a = Some k -> nth_error (h ++ more) a = Some k.
Proof.
  intros Hk.
  rewrite nth_error_app1; [exact Hk|].
  apply nth_error_Some. congruence.
Qed.

(** ** Sequencing *)

Lemma bind_Normal {A B : Type} (c : JS A) (k : A -> JS B) (w w' : World) (x : A) :
  c w = Normal x w' -> bind c k w = k x w'.
Proof. intros H. unfold bind. now rewrite H. Qed.

Lemma bind_Throw {A B : Type} (c : JS A) (k : A -> JS B) (w w' : World)
    (e : Error) :
  c w = Throw e w' -> bind c k w = Throw e w'.
Proof. intros H. unfold bind. now rewrite H. Qed.

(** ** Method calls *)

(** A call on an object of a known class runs the body the class table
    resolves to. *)
Lemma call_resolves (fuel : nat) (w : World) (a : nat) (c : Class) (m : Method) :
  nth_error (heap w) a = Some c ->
  call (S fuel) (Ref a) m w =
  match lookup (call fuel) class_count c m with
  | None => Throw (TypeError m) w
  | Some body => body (Ref a) w
  end.
Proof.
  intros Hc. simpl. now rewrite Hc.
Qed.

Lemma call_undefined (fuel : nat) (w : World) (m : Method) :
  call (S fuel) undefined m w = Throw (TypeError m) w.
Proof. reflexivity. Qed.

Lemma call_without_fuel (receiver : Value) (m : Method) (w : World) :
  call 0 receiver m w = OutOfFuel.
Proof. reflexivity. Qed.

(** A creation operation allocates the promised product and prints
    nothing. *)
Lemma creation_step (fuel : nat) (w : World) (a : nat) (c p : Class) (m : Method) :
  implied_product c m = Some p ->
  nth_error (heap w) a = Some c ->
  call (S fuel) (Ref a) m w =
  Normal (Ref (length (heap w))) (mkWorld (heap w ++ [p]) (console w)).
Proof.
  intros Hp Hc.
  rewrite (call_resolves _ _ _ _ _ Hc).
  destruct c, m; simpl in Hp; try discriminate;
    injection Hp as <-; reflexivity.
Qed.

(** A product operation prints the product's line and leaves the heap as
    it was. *)
Lemma product_step (fuel : nat) (w : World) (a : nat) (c : Class) (m : Method)
    (line : string) :
  product_operation c = Some m ->
  output_line c = Some line ->
  nth_error (heap w) a = Some c ->
  call (S fuel) (Ref a) m w =
  Normal undefined (mkWorld (heap w) (console w ++ [line])).
Proof.
  intros Hm Hl Hc.
  rewrite (call_resolves _ _ _ _ _ Hc).
  unfold output_line in Hl. rewrite Hm in Hl.
  destruct c; simpl in Hm; try discriminate;
    injection Hm as <-; simpl in Hl; injection Hl as <-; reflexivity.
Qed.

(** The template method [sendNotification] of [NotificationFactory], run on
    a concrete factory: the product is created, prints its line, and the
    confirmation line follows. *)
Lemma dispatch_step (fuel : nat) (w : World) (a : nat) (c p : Class)
    (line : string) :
  notification_factory c = true ->
  implied_product c createNotification = Some p ->
  output_line p = Some line ->
  nth_error (heap w) a = Some c ->
  call (S (S fuel)) (Ref a) sendNotification w =
  Normal undefined
    (mkWorld (heap w ++ [p]) (console w ++ [line; "Notification registered"])).
Proof.
  intros Hf Hp Hl Hc.
  rewrite (call_resolves _ _ _ _ _ Hc).
  assert (Hbody : lookup (call (S fuel)) class_count c sendNotification =
                  own_method (call (S fuel)) NotificationFactory sendNotification)
    by (destruct c; simpl in Hf; try discriminate; reflexivity).
  rewrite Hbody. cbn [own_method]. unfold bind.
  rewrite (creation_step _ _ _ _ _ _ Hp Hc).
  assert (Hm : product_operation p = Some sendNotification)
    by (destruct c; simpl in Hp; try discriminate;
        injection Hp as <-; reflexivity).
  rewrite (product_step fuel (mkWorld (heap w ++ [p]) (console w))
             (length (heap w)) p _ line Hm Hl)
    by apply nth_error_fresh.
  unfold console_log. cbn [heap console].
  now rewrite <- app_assoc.
Qed.

(** ** The notification module *)

(** The client of the notification module on a concrete factory. *)
Lemma notification_client_run (fuel : nat) (w : World) (a : nat) (c p : Class)
    (line : string) :
  notification_factory c = true ->
  implied_product c createNotification = Some p ->
  output_line p = Some line ->
  nth_error (heap w) a = Some c ->
  FactoryMethod.someClientCode (S (S fuel)) (Ref a) w =
  Normal undefined
    (mkWorld (heap w ++ [p]) (console w ++ [line; "Notification registered"])).
Proof.
  intros Hf Hp Hl Hc. unfold FactoryMethod.someClientCode.
  now rewrite (bind_Normal _ _ w _ _ (dispatch_step fuel w a c p line Hf Hp Hl Hc)).
Qed.

(** C5.  Sending a notification through an [EmailNotificationFactory]
    prints the line "Email notification sent" and then the line
    "Notification registered", and nothing else: whatever the console held
    before, these two lines are what is added to it, and the call returns
    normally. *)
Theorem email_dispatch_output (fuel : nat) (w : World) (a : nat) :
  nth_error (heap w) a = Some EmailNotificationFactory ->
  exists w',
    FactoryMethod.someClientCode (S (S fuel)) (Ref a) w = Normal undefined w' /\
    console w' =
    console w ++ ["Email notification sent"; "Notification registered"].
Proof.
  intros Hc. eexists. split.
  - apply (notification_client_run fuel w a EmailNotificationFactory
             EmailNotification "Email notification sent"); auto.
  - reflexivity.
Qed.

Lemma email_dispatch_output_witness :
  nth_error (heap (mkWorld [EmailNotificationFactory] [])) 0 =
    Some EmailNotificationFactory /\
  exists w',
    FactoryMethod.someClientCode 2 (Ref 0)
      (mkWorld [EmailNotificationFactory] []) = Normal undefined w' /\
    console w' = ["Email notification sent"; "Notification registered"].
Proof.
  split; [reflexivity|].
  apply (email_dispatch_output 0 (mkWorld [EmailNotificationFactory] []) 0).
  reflexivity.
Defined.

(** C2.  For each of the three concrete notification factories,
    [sendNotification] on the factory adds exactly two lines to the console,
    in this order: the line the product made by [createNotification] prints
    when its own [sendNotification] is called, then the confirmation line
    "Notification registered". *)
Theorem dispatch_two_effects (fuel : nat) (w : World) (a : nat) (c : Class) :
  notification_factory c = true ->
  nth_error (heap w) a = Some c ->
  exists (product : Value) (w1 w2 w' : World) (announce : string),
    call (S fuel) (Ref a) createNotification w = Normal product w1 /\
    console w1 = console w /\
    call (S fuel) product sendNotification w1 = Normal undefined w2 /\
    console w2 = console w1 ++ [announce] /\
    FactoryMethod.someClientCode (S (S fuel)) (Ref a) w = Normal undefined w' /\
    console w' = console w ++ [announce; "Notification registered"].
Proof.
  intros Hf Hc.
  assert (Hp : exists p line,
             implied_product c createNotification = Some p /\
             product_operation p = Some sendNotification /\
             output_line p = Some line).
  { destruct c; simpl in Hf; try discriminate;
      eexists; eexists; repeat split; reflexivity. }
  destruct Hp as (p & line & Hp & Hm & Hl).
  exists (Ref (length (heap w))).
  exists (mkWorld (heap w ++ [p]) (console w)).
  exists (mkWorld (heap w ++ [p]) (console w ++ [line])).
  exists (mkWorld (heap w ++ [p]) (console w ++ [line; "Notification registered"])).
  exists line.
  repeat split.
  - apply (creation_step fuel w a c p _ Hp Hc).
  - apply (product_step fuel (mkWorld (heap w ++ [p]) (console w))
             (length (heap w)) p _ line Hm Hl).
    apply nth_error_fresh.
  - apply (notification_client_run fuel w a c p line Hf Hp Hl Hc).
Qed.

Lemma dispatch_two_effects_witness :
  exists (product : Value) (w1 w2 w' : World) (announce : string),
    call 1 (Ref 0) createNotification (mkWorld [SMSNotificationFactory] []) =
      Normal product w1 /\
    console w1 = [] /\
    call 1 product sendNotification w1 = Normal undefined w2 /\
    console w2 = console w1 ++ [announce] /\
    FactoryMethod.someClientCode 2 (Ref 0) (mkWorld [SMSNotificationFactory] []) =
      Normal undefined w' /\
    console w' = [announce; "Notification registered"].
Proof.
  apply (dispatch_two_effects 0 (mkWorld [SMSNotificationFactory] []) 0
           SMSNotificationFactory); reflexivity.
Defined.

(** C9.  The confirmation line is the one string "Notification registered"
    for all three concrete notification factories: none of them has a
    [sendNotification] of its own, the call resolves to the body written in
    the abstract class [NotificationFactory], and the last line that body
    prints is the same whichever factory received the call. *)
Theorem confirmation_line_shared (fuel : nat) (w : World) (a : nat) (c : Class) :
  notification_factory c = true ->
  nth_error (heap w) a = Some c ->
  own_method (call (S fuel)) c sendNotification = None /\
  extends c = Some NotificationFactory /\
  (exists body,
     own_method (call (S fuel)) NotificationFactory sendNotification = Some body /\
     lookup (call (S fuel)) class_count c sendNotification = Some body /\
     call (S (S fuel)) (Ref a) sendNotification w = body (Ref a) w) /\
  exists w',
    call (S (S fuel)) (Ref a) sendNotification w = Normal undefined w' /\
    last (console w') "" = "Notification registered" /\
    length (console w') = length (console w) + 2.
Proof.
  intros Hf Hc.
  assert (Hp : exists p line,
             implied_product c createNotification = Some p /\
             output_line p = Some line).
  { destruct c; simpl in Hf; try discriminate;
      eexists; eexists; split; reflexivity. }
  destruct Hp as (p & line & Hp & Hl).
  split; [destruct c; simpl in Hf; try discriminate; reflexivity|].
  split; [destruct c; simpl in Hf; try discriminate; reflexivity|].
  split.
  - eexists. split; [reflexivity|]. split.
    + destruct c; simpl in Hf; try discriminate; reflexivity.
    + rewrite (call_resolves _ _ _ _ _ Hc).
      destruct c; simpl in Hf; try discriminate; reflexivity.
  - eexists. split; [apply (dispatch_step fuel w a c p line Hf Hp Hl Hc)|].
    cbn [console]. split.
    + replace [line; "Notification registered"]
        with ([line] ++ ["Notification registered"]) by reflexivity.
      rewrite app_assoc. apply last_last.
    + rewrite length_app. reflexivity.
Qed.

Lemma confirmation_line_shared_witness :
  own_method (call 1) PushNotificationFactory sendNotification = None /\
  extends PushNotificationFactory = Some NotificationFactory /\
  (exists body,
     own_method (call 1) NotificationFactory sendNotification = Some body /\
     lookup (call 1) class_count PushNotificationFactory sendNotification =
       Some body /\
     call 2 (Ref 0) sendNotification (mkWorld [PushNotificationFactory] []) =
       body (Ref 0) (mkWorld [PushNotificationFactory] [])) /\
  exists w',
    call 2 (Ref 0) sendNotification (mkWorld [PushNotificationFactory] []) =
      Normal undefined w' /\
    last (console w') "" = "Notification registered" /\
    length (console w') = 0 + 2.
Proof.
  apply (confirmation_line_shared 0 (mkWorld [PushNotificationFactory] []) 0
           PushNotificationFactory); reflexivity.
Defined.

(** C4.  Every creation operation of every concrete creator returns an
    object of the class the creator's name promises:
    [EmailNotificationFactory] an [EmailNotification], and likewise for
    SMS and Push; [SalesReportFactory] the Sales PDF, Excel and HTML
    reports, and [HRReportFactory] the HR ones. *)
Theorem creator_product_roundtrip (fuel : nat) (w : World) (a : nat)
    (c : Class) (m : Method) :
  creation_operation c m = true ->
  nth_error (heap w) a = Some c ->
  exists (p : Class) (product : Value) (w' : World),
    implied_product c m = Some p /\
    call (S fuel) (Ref a) m w = Normal product w' /\
    class_of w' product = Some p.
Proof.
  intros Hop Hc.
  assert (Hp : exists p, implied_product c m = Some p)
    by (destruct c, m; simpl in Hop; try discriminate; eexists; reflexivity).
  destruct Hp as (p & Hp).
  exists p, (Ref (length (heap w))), (mkWorld (heap w ++ [p]) (console w)).
  split; [exact Hp|]. split.
  - apply (creation_step fuel w a c p m Hp Hc).
  - apply nth_error_fresh.
Qed.

Lemma creator_product_roundtrip_witness :
  exists (p : Class) (product : Value) (w' : World),
    implied_product SalesReportFactory createExcelReport = Some p /\
    call 1 (Ref 1) createExcelReport
      (mkWorld [EmailNotification; SalesReportFactory] ["earlier"]) =
      Normal product w' /\
    class_of w' product = Some p.
Proof.
  apply (creator_product_roundtrip 0
           (mkWorld [EmailNotification; SalesReportFactory] ["earlier"]) 1
           SalesReportFactory createExcelReport); reflexivity.
Defined.

(** ** The report module *)

Lemma report_line_printed (g : Group) (f : Family) :
  output_line (report_class g f) = Some (report_line g f).
Proof. destruct g, f; reflexivity. Qed.

Lemma report_operation (g : Group) (f : Family) :
  product_operation (report_class g f) = Some generate.
Proof. destruct g, f; reflexivity. Qed.

Lemma report_implied (g : Group) (f : Family) :
  implied_product (report_factory g) (create f) = Some (report_class g f).
Proof. destruct g, f; reflexivity. Qed.

(** One step of the report client. *)
Lemma create_then_generate_step (fuel : nat) (w : World) (a : nat)
    (g : Group) (f : Family) :
  nth_error (heap w) a = Some (report_factory g) ->
  create_then_generate (S fuel) (Ref a) f w =
  Normal undefined
    (mkWorld (heap w ++ [report_class g f]) (console w ++ [report_line g f])).
Proof.
  intros Hc. unfold create_then_generate, bind.
  rewrite (creation_step fuel w a _ _ _ (report_implied g f) Hc).
  apply (product_step fuel (mkWorld (heap w ++ [report_class g f]) (console w))
           (length (heap w)) _ _ _
           (report_operation g f) (report_line_printed g f)).
  apply nth_error_fresh.
Qed.

(** The steps in any order, one family after the other: each adds its
    report to the heap and its line to the console. *)
Lemma in_order_run (order : list Family) :
  forall (fuel : nat) (w : World) (a : nat) (g : Group),
    nth_error (heap w) a = Some (report_factory g) ->
    in_order (S fuel) (Ref a) order w =
    Normal undefined
      (mkWorld (heap w ++ map (report_class g) order)
               (console w ++ map (report_line g) order)).
Proof.
  induction order as [|f rest IH]; intros fuel w a g Hc.
  - cbn [in_order map]. unfold ret. rewrite !app_nil_r. now destruct w.
  - cbn [in_order map]. unfold bind at 1.
    rewrite (create_then_generate_step fuel w a g f Hc).
    rewrite (IH fuel _ a g) by (cbn [heap]; now apply nth_error_kept).
    cbn [heap console]. now rewrite <- !app_assoc.
Qed.

(** The client is the three steps in the order PDF, Excel, HTML, whatever
    the factory it is given. *)
Lemma someClientCode_in_order (fuel : nat) (factory : Value) (w : World) :
  AbstractFactory.someClientCode fuel factory w =
  in_order fuel factory [PDF; Excel; HTML] w.
Proof.
  unfold AbstractFactory.someClientCode. cbn [in_order].
  unfold create_then_generate, bind. cbn [create].
  destruct (call fuel factory createPDFReport w) as [r1 w1| |]; try reflexivity.
  destruct (call fuel r1 generate w1) as [u1 w2| |]; try reflexivity.
  destruct (call fuel factory createExcelReport w2) as [r2 w3| |]; try reflexivity.
  destruct (call fuel r2 generate w3) as [u2 w4| |]; try reflexivity.
  destruct (call fuel factory createHTMLReport w4) as [r3 w5| |]; reflexivity.
Qed.

Lemma someClientCode_run (fuel : nat) (w : World) (a : nat) (g : Group) :
  nth_error (heap w) a = Some (report_factory g) ->
  AbstractFactory.someClientCode (S fuel) (Ref a) w =
  Normal undefined
    (mkWorld (heap w ++ map (report_class g) [PDF; Excel; HTML])
             (console w ++ map (report_line g) [PDF; Excel; HTML])).
Proof.
  intros Hc. rewrite someClientCode_in_order.
  apply (in_order_run [PDF; Excel; HTML] fuel w a g Hc).
Qed.

(** The two clients are not interchangeable: the report client, given a
    notification factory, fails at its first call. *)
Lemma report_client_on_notification_factory (fuel : nat) (w : World) (a : nat)
    (c : Class) :
  notification_factory c = true ->
  nth_error (heap w) a = Some c ->
  AbstractFactory.someClientCode (S fuel) (Ref a) w =
  Throw (TypeError createPDFReport) w.
Proof.
  intros Hf Hc. unfold AbstractFactory.someClientCode.
  apply bind_Throw.
  rewrite (call_resolves _ _ _ _ _ Hc).
  destruct c; simpl in Hf; try discriminate; reflexivity.
Qed.

(** C1.  For each of the two concrete report factories, the operations
    [createPDFReport], [createExcelReport] and [createHTMLReport] each
    return a report whose class belongs to the factory's own group, and the
    client, which calls all three and [generate] on each result, adds
    exactly three lines to the console, every one of them tagged with the
    factory's group and none tagged with the other group. *)
Theorem report_factory_group_consistent (fuel : nat) (w : World) (a : nat)
    (g : Group) :
  nth_error (heap w) a = Some (report_factory g) ->
  (forall f : Family,
     exists (report : Value) (w1 : World) (p : Class),
       call (S fuel) (Ref a) (create f) w = Normal report w1 /\
       class_of w1 report = Some p /\
       group_of p = Some g /\
       family_of p = Some f) /\
  exists (w' : World) (l1 l2 l3 : string),
    AbstractFactory.someClientCode (S fuel) (Ref a) w = Normal undefined w' /\
    console w' = console w ++ [l1; l2; l3] /\
    Forall (fun line => tagged g line = true /\ tagged (other g) line = false)
           [l1; l2; l3].
Proof.
  intros Hc. split.
  - intros f.
    exists (Ref (length (heap w))),
           (mkWorld (heap w ++ [report_class g f]) (console w)),
           (report_class g f).
    split; [apply (creation_step fuel w a _ _ _ (report_implied g f) Hc)|].
    split; [apply nth_error_fresh|].
    destruct g, f; split; reflexivity.
  - eexists. exists (report_line g PDF), (report_line g Excel), (report_line g HTML).
    split; [apply (someClientCode_run fuel w a g Hc)|].
    split; [reflexivity|].
    destruct g; repeat constructor.
Qed.

Lemma report_factory_group_consistent_witness :
  (forall f : Family,
     exists (report : Value) (w1 : World) (p : Class),
       call 1 (Ref 0) (create f) (mkWorld [HRReportFactory] []) =
         Normal report w1 /\
       class_of w1 report = Some p /\
       group_of p = Some HR /\
       family_of p = Some f) /\
  exists (w' : World) (l1 l2 l3 : string),
    AbstractFactory.someClientCode 1 (Ref 0) (mkWorld [HRReportFactory] []) =
      Normal undefined w' /\
    console w' = [l1; l2; l3] /\
    Forall (fun line => tagged HR line = true /\ tagged Sales line = false)
           [l1; l2; l3].
Proof.
  apply (report_factory_group_consistent 0 (mkWorld [HRReportFactory] []) 0 HR).
  reflexivity.
Defined.

(** C6.  For each concrete report factory, the three create-then-generate
    steps performed in any order of PDF, Excel and HTML add to the console
    the same lines, counted with multiplicity, as the client's fixed order
    PDF, Excel, HTML.  For [SalesReportFactory] the client's lines are
    "Sales PDF report generated", "Sales Excel report generated" and
    "Sales HTML report generated", and no line of any order is tagged HR. *)
Theorem report_steps_order_insignificant (fuel : nat) (w : World) (a : nat)
    (g : Group) (order : list Family) :
  Permutation [PDF; Excel; HTML] order ->
  nth_error (heap w) a = Some (report_factory g) ->
  exists (w1 w2 : World) (fixed reordered : list string),
    AbstractFactory.someClientCode (S fuel) (Ref a) w = Normal undefined w1 /\
    console w1 = console w ++ fixed /\
    in_order (S fuel) (Ref a) order w = Normal undefined w2 /\
    console w2 = console w ++ reordered /\
    Permutation fixed reordered /\
    (g = Sales ->
     fixed = ["Sales PDF report generated"; "Sales Excel report generated";
              "Sales HTML report generated"] /\
     Forall (fun line => tagged HR line = false) reordered).
Proof.
  intros Hperm Hc.
  eexists. eexists.
  exists (map (report_line g) [PDF; Excel; HTML]), (map (report_line g) order).
  split; [apply (someClientCode_run fuel w a g Hc)|].
  split; [reflexivity|].
  split; [apply (in_order_run order fuel w a g Hc)|].
  split; [reflexivity|].
  split; [now apply Permutation_map|].
  intros ->. split; [reflexivity|].
  apply Forall_forall. intros line Hin.
  apply in_map_iff in Hin. destruct Hin as (f & <- & _).
  now destruct f.
Qed.

Lemma report_steps_order_insignificant_witness :
  Permutation [PDF; Excel; HTML] [HTML; PDF; Excel] /\
  exists (w1 w2 : World) (fixed reordered : list string),
    AbstractFactory.someClientCode 1 (Ref 0) (mkWorld [SalesReportFactory] []) =
      Normal undefined w1 /\
    console w1 = [] ++ fixed /\
    in_order 1 (Ref 0) [HTML; PDF; Excel] (mkWorld [SalesReportFactory] []) =
      Normal undefined w2 /\
    console w2 = [] ++ reordered /\
    Permutation fixed reordered /\
    (Sales = Sales ->
     fixed = ["Sales PDF report generated"; "Sales Excel report generated";
              "Sales HTML report generated"] /\
     Forall (fun line => tagged HR line = false) reordered).
Proof.
  assert (Hperm : Permutation [PDF; Excel; HTML] [HTML; PDF; Excel]).
  { apply (Permutation_cons_app [HTML] [Excel] PDF). apply perm_swap. }
  split; [exact Hperm|].
  apply (report_steps_order_insignificant 0 (mkWorld [SalesReportFactory] []) 0
           Sales [HTML; PDF; Excel] Hperm).
  reflexivity.
Defined.

(** The six orders of the three families are exactly the lists the
    hypothesis of the theorem above admits. *)
Lemma six_orders (order : list Family) :
  Permutation [PDF; Excel; HTML] order <->
  In order [[PDF; Excel; HTML]; [PDF; HTML; Excel]; [Excel; PDF; HTML];
            [Excel; HTML; PDF]; [HTML; PDF; Excel]; [HTML; Excel; PDF]].
Proof.
  split.
  - intros Hperm.
    pose proof (Permutation_length Hperm) as Hlen.
    destruct order as [|x [|y [|z [|? ?]]]]; try discriminate.
    assert (Hnd : NoDup [x; y; z]).
    { apply (Permutation_NoDup Hperm).
      repeat constructor; simpl; intuition discriminate. }
    inversion Hnd as [|? ? Hx' Hnd']; subst.
    inversion Hnd' as [|? ? Hy' _]; subst.
    simpl in Hx', Hy'.
    destruct x, y, z; simpl; intuition congruence.
  - simpl. intros [<-|[<-|[<-|[<-|[<-|[<-|[]]]]]]].
    + reflexivity.
    + apply perm_skip, perm_swap.
    + apply perm_swap.
    + apply (Permutation_cons_app [Excel; HTML] [] PDF). reflexivity.
    + apply (Permutation_cons_app [HTML] [Excel] PDF). apply perm_swap.
    + apply (Permutation_cons_app [HTML; Excel] [] PDF). apply perm_swap.
Qed.

(** ** Repeated creation *)

Lemma repeatedly_create (fuel : nat) (a : nat) (c p : Class) (m : Method)
    (n : nat) :
  implied_product c m = Some p ->
  forall w : World,
    nth_error (heap w) a = Some c ->
    repeatedly n (call (S fuel) (Ref a) m) w =
    Normal (map Ref (seq (length (heap w)) n))
           (mkWorld (heap w ++ repeat p n) (console w)).
Proof.
  intros Hp. induction n as [|n IH]; intros w Hc.
  - cbn [repeatedly seq map repeat]. unfold ret.
    rewrite app_nil_r. now destruct w.
  - cbn [repeatedly]. unfold bind at 1.
    rewrite (creation_step fuel w a c p m Hp Hc).
    unfold bind at 1.
    rewrite IH by (cbn [heap]; now apply nth_error_kept).
    unfold ret. cbn [heap console seq map repeat].
    rewrite length_app, Nat.add_1_r, <- app_assoc.
    reflexivity.
Qed.

Lemma Ref_injective : Injective Ref.
Proof. intros x y H. now injection H. Qed.

(** C7.  Calling the same creation operation of a concrete creator any
    number of times, one call after the other, succeeds every time and
    returns every time a new object of the same class: the references
    returned are pairwise different and none of them was an object before,
    the objects that were in the heap stay as they were, the console is not
    touched, and the operation of each returned product does the same as
    that of every other: it prints the same single line. *)
Theorem creation_idempotent (fuel n : nat) (w : World) (a : nat)
    (c : Class) (m : Method) :
  creation_operation c m = true ->
  nth_error (heap w) a = Some c ->
  exists (p : Class) (pm : Method) (line : string)
         (results : list Value) (w' : World),
    repeatedly n (call (S fuel) (Ref a) m) w = Normal results w' /\
    length results = n /\
    NoDup results /\
    console w' = console w /\
    (forall (b : nat) (k : Class),
       nth_error (heap w) b = Some k -> nth_error (heap w') b = Some k) /\
    product_operation p = Some pm /\
    forall r : Value,
      In r results ->
      class_of w r = None /\
      class_of w' r = Some p /\
      forall (fuel' : nat) (w'' : World),
        class_of w'' r = Some p ->
        call (S fuel') r pm w'' =
        Normal undefined (mkWorld (heap w'') (console w'' ++ [line])).
Proof.
  intros Hop Hc.
  assert (Hp : exists p pm line,
             implied_product c m = Some p /\
             product_operation p = Some pm /\
             output_line p = Some line).
  { destruct c, m; simpl in Hop; try discriminate;
      do 3 eexists; repeat split; reflexivity. }
  destruct Hp as (p & pm & line & Hp & Hpm & Hl).
  exists p, pm, line, (map Ref (seq (length (heap w)) n)),
         (mkWorld (heap w ++ repeat p n) (console w)).
  split; [apply (repeatedly_create fuel a c p m n Hp w Hc)|].
  split; [now rewrite length_map, length_seq|].
  split; [apply (Injective_map_NoDup Ref_injective), seq_NoDup|].
  split; [reflexivity|].
  split; [intros b k Hb; cbn [heap]; now apply nth_error_grown|].
  split; [exact Hpm|].
  intros r Hr.
  apply in_map_iff in Hr. destruct Hr as (b & <- & Hb).
  apply in_seq in Hb. cbn [class_of heap].
  split; [apply nth_error_None; lia|].
  split.
  - rewrite nth_error_app2 by lia.
    apply nth_error_repeat. lia.
  - intros fuel' w'' Hr.
    apply (product_step fuel' w'' b p pm line Hpm Hl Hr).
Qed.

Lemma creation_idempotent_witness :
  exists (p : Class) (pm : Method) (line : string)
         (results : list Value) (w' : World),
    repeatedly 3 (call 1 (Ref 0) createNotification)
      (mkWorld [PushNotificationFactory] ["earlier"]) = Normal results w' /\
    length results = 3 /\
    NoDup results /\
    console w' = ["earlier"] /\
    (forall (b : nat) (k : Class),
       nth_error [PushNotificationFactory] b = Some k ->
       nth_error (heap w') b = Some k) /\
    product_operation p = Some pm /\
    forall r : Value,
      In r results ->
      class_of (mkWorld [PushNotificationFactory] ["earlier"]) r = None /\
      class_of w' r = Some p /\
      forall (fuel' : nat) (w'' : World),
        class_of w'' r = Some p ->
        call (S fuel') r pm w'' =
        Normal undefined (mkWorld (heap w'') (console w'' ++ [line])).
Proof.
  apply (creation_idempotent 0 3
           (mkWorld [PushNotificationFactory] ["earlier"]) 0
           PushNotificationFactory createNotification); reflexivity.
Defined.

(** ** Totality *)

(** The error branch of a call is real: the template method run on an
    object of the abstract class itself finds no [createNotification]. *)
Lemma abstract_receiver_throws (fuel : nat) (w : World) (a : nat) :
  nth_error (heap w) a = Some NotificationFactory ->
  call (S (S fuel)) (Ref a) sendNotification w =
  Throw (TypeError createNotification) w.
Proof.
  intros Hc.
  rewrite (call_resolves _ _ _ _ _ Hc).
  cbn [lookup own_method class_count]. unfold bind.
  now rewrite (call_resolves _ _ _ _ _ Hc).
Qed.

(** A call that was granted too little depth does not finish. *)
Lemma dispatch_needs_depth (w : World) (a : nat) (c : Class) :
  notification_factory c = true ->
  nth_error (heap w) a = Some c ->
  call 1 (Ref a) sendNotification w = OutOfFuel.
Proof.
  intros Hf Hc.
  rewrite (call_resolves _ _ _ _ _ Hc).
  destruct c; simpl in Hf; try discriminate; reflexivity.
Qed.

(** Allocation succeeds. *)
Lemma new_succeeds (c : Class) (w : World) :
  exists (v : Value) (w' : World), new c w = Normal v w'.
Proof. do 2 eexists. reflexivity. Qed.

(** The two clients succeed on the factories they are meant for. *)
Lemma notification_client_succeeds (fuel : nat) (w : World) (a : nat)
    (c : Class) :
  notification_factory c = true ->
  nth_error (heap w) a = Some c ->
  exists w' : World,
    FactoryMethod.someClientCode (S (S fuel)) (Ref a) w = Normal undefined w'.
Proof.
  intros Hf Hc.
  destruct c; simpl in Hf; try discriminate;
    eexists; eapply notification_client_run; try exact Hc; reflexivity.
Qed.

Lemma report_client_succeeds (fuel : nat) (w : World) (a : nat) (g : Group) :
  nth_error (heap w) a = Some (report_factory g) ->
  exists w' : World,
    AbstractFactory.someClientCode (S fuel) (Ref a) w = Normal undefined w'.
Proof.
  intros Hc. eexists. apply (someClientCode_run fuel w a g Hc).
Qed.

(** C8.  Every operation succeeds on every concrete variant: whatever
    method an object of a class that is not abstract offers (a creation
    operation, a product's [sendNotification] or [generate], the factory's
    [sendNotification]), calling it returns normally from every state; no
    [TypeError] is raised, and a call depth of two is enough. *)
Theorem every_operation_succeeds (fuel : nat) (w : World) (a : nat)
    (c : Class) (m : Method) :
  abstract_class c = false ->
  offers class_count c m = true ->
  nth_error (heap w) a = Some c ->
  exists (v : Value) (w' : World),
    call (S (S fuel)) (Ref a) m w = Normal v w'.
Proof.
  intros Hconcrete Hoffers Hc.
  destruct c; try discriminate Hconcrete;
    destruct m; try discriminate Hoffers;
    try (rewrite (call_resolves _ _ _ _ _ Hc); do 2 eexists; reflexivity);
    do 2 eexists;
    eapply dispatch_step; try exact Hc; reflexivity.
Qed.

Lemma every_operation_succeeds_witness :
  exists (v : Value) (w' : World),
    call 2 (Ref 1) sendNotification
      (mkWorld [HRReportFactory; SMSNotificationFactory] ["earlier"]) =
    Normal v w'.
Proof.
  apply (every_operation_succeeds 0
           (mkWorld [HRReportFactory; SMSNotificationFactory] ["earlier"]) 1
           SMSNotificationFactory sendNotification); reflexivity.
Defined.

(** ** The lines of the products *)

Lemma all_classes_complete (c : Class) : In c all_classes.
Proof. destruct c; simpl; tauto. Qed.

(** C10.  There are nine product classes.  The operation of each prints
    exactly one line, and the nine lines are pairwise different: two
    product classes that print the same line are the same class, so a line
    tells the class, and for a report its group and its family. *)
Theorem product_lines_identify :
  products =
    [EmailNotification; SMSNotification; PushNotification;
     SalesPDFReport; HRPDFReport; SalesExcelReport; HRExcelReport;
     SalesHTMLReport; HRHTMLReport] /\
  (forall c : Class,
     In c products ->
     exists (m : Method) (line : string),
       product_operation c = Some m /\
       output_line c = Some line /\
       forall (fuel : nat) (w : World) (a : nat),
         nth_error (heap w) a = Some c ->
         call (S fuel) (Ref a) m w =
         Normal undefined (mkWorld (heap w) (console w ++ [line]))) /\
  NoDup (map output_line products) /\
  (forall c1 c2 : Class,
     In c1 products -> In c2 products ->
     output_line c1 = output_line c2 -> c1 = c2) /\
  (forall c1 c2 : Class,
     In c1 products -> In c2 products ->
     output_line c1 = output_line c2 ->
     group_of c1 = group_of c2 /\ family_of c1 = family_of c2) /\
  (forall (g g' : Group) (f f' : Family),
     In (report_class g f) products /\
     group_of (report_class g f) = Some g /\
     family_of (report_class g f) = Some f /\
     (report_line g f = report_line g' f' -> g = g' /\ f = f')).
Proof.
  assert (Hinj : forall c1 c2 : Class,
             In c1 products -> In c2 products ->
             output_line c1 = output_line c2 -> c1 = c2).
  { intros c1 c2 H1 H2 Heq.
    destruct c1; try (exfalso; simpl in H1; intuition discriminate);
      destruct c2; try (exfalso; simpl in H2; intuition discriminate);
      try reflexivity; discriminate Heq. }
  split; [reflexivity|].
  split.
  - intros c Hin.
    assert (H : exists m line,
               product_operation c = Some m /\ output_line c = Some line).
    { destruct c; try (exfalso; simpl in Hin; intuition discriminate);
        do 2 eexists; split; reflexivity. }
    destruct H as (m & line & Hm & Hl).
    exists m, line. repeat split; trivial.
    intros fuel w a Hc. apply (product_step fuel w a c m line Hm Hl Hc).
  - split.
    + cbv [products filter all_classes is_product map].
      repeat constructor; simpl; intuition discriminate.
    + split; [exact Hinj|]. split.
      * intros c1 c2 H1 H2 Heq.
        now rewrite (Hinj c1 c2 H1 H2 Heq).
      * intros g g' f f'.
        split; [destruct g, f; simpl; tauto|].
        split; [now destruct g, f|].
        split; [now destruct g, f|].
        destruct g, g', f, f'; intros Heq; try discriminate Heq; now split.
Qed.

Lemma product_lines_identify_witness :
  In SalesExcelReport products /\
  In HRExcelReport products /\
  output_line SalesExcelReport <> output_line HRExcelReport /\
  call 1 (Ref 0) generate (mkWorld [SalesExcelReport] []) =
  Normal undefined (mkWorld [SalesExcelReport] ["Sales Excel report generated"]).
Proof.
  destruct product_lines_identify as (Hlist & Hone & _ & Hinj & _).
  assert (H1 : In SalesExcelReport products) by (rewrite Hlist; simpl; tauto).
  assert (H2 : In HRExcelReport products) by (rewrite Hlist; simpl; tauto).
  split; [exact H1|]. split; [exact H2|]. split.
  - intros Heq. pose proof (Hinj _ _ H1 H2 Heq) as Hc. discriminate Hc.
  - destruct (Hone _ H1) as (m & line & Hm & Hl & Hrun).
    injection Hm as <-. injection Hl as <-.
    apply (Hrun 0 (mkWorld [SalesExcelReport] []) 0). reflexivity.
Defined.

(** ** The demonstration *)

(** One top-level statement of the notification module. *)
Lemma notification_usage_step (fuel : nat) (w : World) (c p : Class)
    (line : string) :
  notification_factory c = true ->
  implied_product c createNotification = Some p ->
  output_line p = Some line ->
  (factory <- new c ;; FactoryMethod.someClientCode (S (S fuel)) factory) w =
  Normal undefined
    (mkWorld (heap w ++ [c; p]) (console w ++ [line; "Notification registered"])).
Proof.
  intros Hf Hp Hl.
  rewrite (bind_Normal (new c) _ w _ _ eq_refl).
  rewrite (notification_client_run fuel (mkWorld (heap w ++ [c]) (console w))
             (length (heap w)) c p line Hf Hp Hl (nth_error_fresh _ _)).
  cbn [heap console]. now rewrite <- app_assoc.
Qed.

(** One top-level statement of the report module. *)
Lemma report_usage_step (fuel : nat) (w : World) (g : Group) :
  (factory <- new (report_factory g) ;;
   AbstractFactory.someClientCode (S fuel) factory) w =
  Normal undefined
    (mkWorld (heap w ++ report_factory g :: map (report_class g) [PDF; Excel; HTML])
             (console w ++ map (report_line g) [PDF; Excel; HTML])).
Proof.
  rewrite (bind_Normal (new (report_factory g)) _ w _ _ eq_refl).
  rewrite (someClientCode_run fuel
             (mkWorld (heap w ++ [report_factory g]) (console w))
             (length (heap w)) g (nth_error_fresh _ _)).
  cbn [heap console]. now rewrite <- app_assoc.
Qed.

Lemma notification_usage_run (fuel : nat) (w : World) :
  FactoryMethod.usage (S (S fuel)) w =
  Normal undefined
    (mkWorld
       (heap w ++
        [EmailNotificationFactory; EmailNotification;
         SMSNotificationFactory; SMSNotification;
         PushNotificationFactory; PushNotification])
       (console w ++
        ["Email notification sent"; "Notification registered";
         "SMS notification sent"; "Notification registered";
         "Push notification sent"; "Notification registered"])).
Proof.
  unfold FactoryMethod.usage.
  rewrite (bind_Normal _ _ w _ _
             (notification_usage_step fuel w EmailNotificationFactory
                EmailNotification _ eq_refl eq_refl eq_refl)).
  rewrite (bind_Normal _ _ _ _ _
             (notification_usage_step fuel _ SMSNotificationFactory
                SMSNotification _ eq_refl eq_refl eq_refl)).
  rewrite (notification_usage_step fuel _ PushNotificationFactory
             PushNotification _ eq_refl eq_refl eq_refl).
  cbn [heap console]. now rewrite <- !app_assoc.
Qed.

Lemma report_usage_run (fuel : nat) (w : World) :
  AbstractFactory.usage (S fuel) w =
  Normal undefined
    (mkWorld
       (heap w ++
        [SalesReportFactory; SalesPDFReport; SalesExcelReport; SalesHTMLReport;
         HRReportFactory; HRPDFReport; HRExcelReport; HRHTMLReport])
       (console w ++
        ["Sales PDF report generated"; "Sales Excel report generated";
         "Sales HTML report generated";
         "HR PDF report generated"; "HR Excel report generated";
         "HR HTML report generated"])).
Proof.
  unfold AbstractFactory.usage.
  rewrite (bind_Normal _ _ w _ _ (report_usage_step fuel w Sales)).
  rewrite (report_usage_step fuel _ HR).
  cbn [heap console]. now rewrite <- !app_assoc.
Qed.

(** C3.  The demonstration runs the top-level statements of the
    notification module and then those of the report module.  From every
    state it returns normally.  It creates the three notification factories
    and then the two report factories, and adds twelve lines to the
    console: the six of the notification module (for each factory the
    product's line and the confirmation line) followed by the six of the
    report module (one line per [generate]). *)
Theorem demonstration_output (fuel : nat) (w : World) :
  exists w1 w2 : World,
    FactoryMethod.usage (S (S fuel)) w = Normal undefined w1 /\
    console w1 =
      console w ++
      ["Email notification sent"; "Notification registered";
       "SMS notification sent"; "Notification registered";
       "Push notification sent"; "Notification registered"] /\
    AbstractFactory.usage (S (S fuel)) w1 = Normal undefined w2 /\
    console w2 =
      console w1 ++
      ["Sales PDF report generated"; "Sales Excel report generated";
       "Sales HTML report generated";
       "HR PDF report generated"; "HR Excel report generated";
       "HR HTML report generated"] /\
    demonstration (S (S fuel)) w = Normal undefined w2 /\
    length (console w2) = length (console w) + 12 /\
    filter (fun c => negb (is_product c)) (skipn (length (heap w)) (heap w2)) =
      [EmailNotificationFactory; SMSNotificationFactory;
       PushNotificationFactory; SalesReportFactory; HRReportFactory].
Proof.
  eexists. eexists.
  split; [apply notification_usage_run|].
  split; [reflexivity|].
  split; [apply report_usage_run|].
  split; [reflexivity|].
  split.
  - unfold demonstration.
    rewrite (bind_Normal _ _ w _ _ (notification_usage_run fuel w)).
    apply report_usage_run.
  - cbn [heap console]. split.
    + rewrite !length_app. simpl. lia.
    + rewrite <- app_assoc, skipn_app, skipn_all, Nat.sub_diag.
      reflexivity.
Qed.

(** ** Runs from the empty state *)

Example demonstration_runs :
  demonstration 2 (mkWorld [] []) =
  Normal undefined
    (mkWorld
       [EmailNotificationFactory; EmailNotification;
        SMSNotificationFactory; SMSNotification;
        PushNotificationFactory; PushNotification;
        SalesReportFactory; SalesPDFReport; SalesExcelReport; SalesHTMLReport;
        HRReportFactory; HRPDFReport; HRExcelReport; HRHTMLReport]
       ["Email notification sent"; "Notification registered";
        "SMS notification sent"; "Notification registered";
        "Push notification sent"; "Notification registered";
        "Sales PDF report generated"; "Sales Excel report generated";
        "Sales HTML report generated";
        "HR PDF report generated"; "HR Excel report generated";
        "HR HTML report generated"]).
Proof. reflexivity. Qed.

Example demonstration_shallow : demonstration 1 (mkWorld [] []) = OutOfFuel.
Proof. reflexivity. Qed.

Example notification_factories :
  filter notification_factory all_classes =
  [EmailNotificationFactory; SMSNotificationFactory; PushNotificationFactory].
Proof. reflexivity. Qed.

Example creation_operations :
  map fst
    (filter (fun cm => creation_operation (fst cm) (snd cm))
       (list_prod all_classes
          [sendNotification; createNotification; generate;
           createPDFReport; createExcelReport; createHTMLReport])) =
  [EmailNotificationFactory; SMSNotificationFactory; PushNotificationFactory;
   SalesReportFactory; SalesReportFactory; SalesReportFactory;
   HRReportFactory; HRReportFactory; HRReportFactory].
Proof. reflexivity. Qed.

Example offered_operations :
  length (filter (fun cm => negb (abstract_class (fst cm)) &&
                            offers class_count (fst cm) (snd cm))
            (list_prod all_classes
               [sendNotification; createNotification; generate;
                createPDFReport; createExcelReport; createHTMLReport])) = 21.
Proof. reflexivity. Qed.

(** * Further properties of the class table *)

(** ** How a call can end *)

Lemma grows_refl (w : World) : grows w w.
Proof. exists [], []. now rewrite !app_nil_r. Qed.

Lemma grows_trans (w1 w2 w3 : World) : grows w1 w2 -> grows w2 w3 -> grows w1 w3.
Proof.
  intros (h1 & l1 & Hh1 & Hl1) (h2 & l2 & Hh2 & Hl2).
  exists (h1 ++ h2), (l1 ++ l2).
  rewrite Hh2, Hh1, Hl2, Hl1, !app_assoc. now split.
Qed.

(** Every call ends in one of the five shapes, whatever the receiver, the
    method, the state and the depth granted. *)
Lemma call_shape (fuel : nat) (receiver : Value) (m : Method) (w : World) :
  shape w m (call fuel receiver m w).
Proof.
  destruct fuel as [|fuel]; [apply shape_unfinished|].
  destruct receiver as [|a];
    [apply shape_raised; now left|].
  destruct (nth_error (heap w) a) as [c|] eqn:Hc;
    [|simpl; rewrite Hc; apply shape_raised; now left].
  destruct fuel as [|fuel].
  - rewrite (call_resolves _ _ _ _ _ Hc).
    destruct c, m; simpl;
      first [ apply shape_unfinished
            | apply shape_raised; now left
            | apply shape_printed; reflexivity
            | apply shape_created; reflexivity ].
  - destruct c, m;
      try (rewrite (call_resolves _ _ _ _ _ Hc); simpl;
           first [ apply shape_raised; now left
                 | apply shape_printed; reflexivity
                 | apply shape_created; reflexivity ]).
    + rewrite (abstract_receiver_throws fuel w a Hc).
      apply shape_raised. right. now split.
    + erewrite dispatch_step; try exact Hc; try reflexivity.
      now apply shape_dispatched.
    + erewrite dispatch_step; try exact Hc; try reflexivity.
      now apply shape_dispatched.
    + erewrite dispatch_step; try exact Hc; try reflexivity.
      now apply shape_dispatched.
Qed.

(** X1.  A call only ever adds to the state.  However it ends, normally
    or with an exception, the heap and the console it leaves are those it
    found with objects and lines added at the end: every object that
    existed is still there with the class it had, and every line printed
    before is still at its place. *)
Theorem call_only_appends (fuel : nat) (receiver : Value) (m : Method)
    (w w' : World) :
  (exists v, call fuel receiver m w = Normal v w') \/
  (exists e, call fuel receiver m w = Throw e w') ->
  grows w w' /\
  (forall (b : nat) (k : Class),
     nth_error (heap w) b = Some k -> nth_error (heap w') b = Some k) /\
  (forall (i : nat) (line : string),
     nth_error (console w) i = Some line ->
     nth_error (console w') i = Some line).
Proof.
  intros Hend.
  assert (Hg : grows w w').
  { pose proof (call_shape fuel receiver m w) as Hs.
    destruct Hend as [(v & Hv)|(e & He)].
    - rewrite Hv in Hs. inversion Hs; subst.
      + exists [], [line]. cbn [heap console]. now rewrite app_nil_r.
      + exists [p], []. cbn [heap console]. now rewrite app_nil_r.
      + exists [p], [line; "Notification registered"]. now cbn [heap console].
    - rewrite He in Hs. inversion Hs; subst. apply grows_refl. }
  split; [exact Hg|].
  destruct Hg as (objects & lines & Hh & Hl).
  split.
  - intros b k Hb. rewrite Hh.
    rewrite nth_error_app1; [exact Hb|]. apply nth_error_Some. congruence.
  - intros i line Hi. rewrite Hl.
    rewrite nth_error_app1; [exact Hi|]. apply nth_error_Some. congruence.
Qed.

Lemma call_only_appends_witness :
  grows (mkWorld [SMSNotificationFactory] ["earlier"])
        (mkWorld [SMSNotificationFactory; SMSNotification]
                 ["earlier"; "SMS notification sent"; "Notification registered"]) /\
  (forall (b : nat) (k : Class),
     nth_error [SMSNotificationFactory] b = Some k ->
     nth_error [SMSNotificationFactory; SMSNotification] b = Some k) /\
  (forall (i : nat) (line : string),
     nth_error ["earlier"] i = Some line ->
     nth_error ["earlier"; "SMS notification sent"; "Notification registered"] i =
     Some line).
Proof.
  apply (call_only_appends 2 (Ref 0) sendNotification
           (mkWorld [SMSNotificationFactory] ["earlier"])
           (mkWorld [SMSNotificationFactory; SMSNotification]
              ["earlier"; "SMS notification sent"; "Notification registered"])).
  left. exists undefined. reflexivity.
Defined.

(** X2.  An exception leaves no trace.  When a call raises, the state is
    exactly the one the call started from: nothing was printed and nothing
    allocated.  The exception is a [TypeError] that names the method called
    or, when the factory's [sendNotification] was called, the
    [createNotification] it could not resolve. *)
Theorem raise_changes_nothing (fuel : nat) (receiver : Value) (m : Method)
    (w w' : World) (e : Error) :
  call fuel receiver m w = Throw e w' ->
  w' = w /\
  (e = TypeError m \/
   (m = sendNotification /\ e = TypeError createNotification)).
Proof.
  intros He.
  pose proof (call_shape fuel receiver m w) as Hs.
  rewrite He in Hs. inversion Hs as [| | |m' Hm'|]; subst.
  split; [reflexivity|].
  destruct Hm' as [->|[-> ->]]; [now left|right; now split].
Qed.

Lemma raise_changes_nothing_witness :
  mkWorld [NotificationFactory] ["earlier"] =
  mkWorld [NotificationFactory] ["earlier"] /\
  (TypeError createNotification = TypeError sendNotification \/
   (sendNotification = sendNotification /\
    TypeError createNotification = TypeError createNotification)).
Proof.
  apply (raise_changes_nothing 2 (Ref 0) sendNotification
           (mkWorld [NotificationFactory] ["earlier"])).
  reflexivity.
Defined.

(** X3.  What a call returns conforms to the return type the method is
    declared with: a [void] method returns [undefined];
    [createNotification] returns an object of a class that implements
    [INotification]; [createPDFReport], [createExcelReport] and
    [createHTMLReport] return an object of a class that extends
    [PDFReport], [ExcelReport] and [HTMLReport].  A returned object is
    always new, and its class is never abstract. *)
Theorem result_conforms (fuel : nat) (receiver : Value) (m : Method)
    (w w' : World) (v : Value) :
  call fuel receiver m w = Normal v w' ->
  conforms w' v (return_type m) /\
  (forall c : Class,
     class_of w' v = Some c ->
     class_of w v = None /\ abstract_class c = false).
Proof.
  intros Hv.
  pose proof (call_shape fuel receiver m w) as Hs.
  rewrite Hv in Hs. inversion Hs as [line Ht|p Hp Hconcrete|p line Hm| |]; subst.
  - split; [now rewrite Ht|]. intros c Hc. discriminate Hc.
  - split.
    + assert (Hfresh : class_of (mkWorld (heap w ++ [p]) (console w))
                         (Ref (length (heap w))) = Some p)
        by apply nth_error_fresh.
      destruct (return_type m); [destruct Hp| |]; exists p; now split.
    + intros c Hc. cbn [class_of heap] in Hc |- *.
      rewrite nth_error_fresh in Hc. injection Hc as <-.
      split; [apply nth_error_None; lia|exact Hconcrete].
  - split; [reflexivity|]. intros c Hc. discriminate Hc.
Qed.

Lemma result_conforms_witness :
  conforms (mkWorld [HRReportFactory; HRHTMLReport] [])
    (Ref 1) (return_type createHTMLReport) /\
  (forall c : Class,
     class_of (mkWorld [HRReportFactory; HRHTMLReport] []) (Ref 1) = Some c ->
     class_of (mkWorld [HRReportFactory] []) (Ref 1) = None /\
     abstract_class c = false).
Proof.
  apply (result_conforms 1 (Ref 0) createHTMLReport
           (mkWorld [HRReportFactory] [])).
  reflexivity.
Defined.

(** The template method gives the same result at every depth of two or
    more. *)
Lemma template_depth (fuel : nat) (w : World) (a : nat) (c : Class) :
  nth_error (heap w) a = Some c ->
  c = NotificationFactory \/ notification_factory c = true ->
  call (S (S fuel)) (Ref a) sendNotification w =
    call 2 (Ref a) sendNotification w /\
  call 2 (Ref a) sendNotification w <> OutOfFuel.
Proof.
  intros Hc [->|Hf].
  - rewrite (abstract_receiver_throws fuel w a Hc),
            (abstract_receiver_throws 0 w a Hc).
    split; [reflexivity|discriminate].
  - assert (Hp : exists p line,
               implied_product c createNotification = Some p /\
               output_line p = Some line).
    { destruct c; simpl in Hf; try discriminate;
        eexists; eexists; split; reflexivity. }
    destruct Hp as (p & line & Hp & Hl).
    rewrite (dispatch_step fuel w a c p line Hf Hp Hl Hc),
            (dispatch_step 0 w a c p line Hf Hp Hl Hc).
    split; [reflexivity|discriminate].
Qed.

(** X4.  Calls nest at most two deep.  With a depth of two or more every
    call finishes, on every receiver and in every state, and the result is
    the same for every such depth; a factory can never hand back an object
    whose [sendNotification] calls on. *)
Theorem call_depth_two (fuel : nat) (receiver : Value) (m : Method) (w : World) :
  call (S (S fuel)) receiver m w = call 2 receiver m w /\
  call 2 receiver m w <> OutOfFuel.
Proof.
  destruct receiver as [|a]; [split; [reflexivity|discriminate]|].
  destruct (nth_error (heap w) a) as [c|] eqn:Hc;
    [|split; [simpl; now rewrite Hc|simpl; rewrite Hc; discriminate]].
  assert (Hplain :
            forall body : Body,
              lookup (call (S fuel)) class_count c m = Some body ->
              lookup (call 1) class_count c m = Some body ->
              body (Ref a) w <> OutOfFuel ->
              call (S (S fuel)) (Ref a) m w = call 2 (Ref a) m w /\
              call 2 (Ref a) m w <> OutOfFuel).
  { intros body H1 H2 Hbody.
    rewrite (call_resolves (S fuel) _ _ _ _ Hc), (call_resolves 1 _ _ _ _ Hc).
    rewrite H1, H2. now split. }
  assert (Hnone :
            lookup (call (S fuel)) class_count c m = None ->
            lookup (call 1) class_count c m = None ->
            call (S (S fuel)) (Ref a) m w = call 2 (Ref a) m w /\
            call 2 (Ref a) m w <> OutOfFuel).
  { intros H1 H2.
    rewrite (call_resolves (S fuel) _ _ _ _ Hc), (call_resolves 1 _ _ _ _ Hc).
    rewrite H1, H2. split; [reflexivity|discriminate]. }
  destruct c, m;
    first [ lazymatch goal with
            | |- call _ _ sendNotification _ = _ /\ _ =>
                apply (template_depth fuel w a _ Hc);
                solve [left; reflexivity | right; reflexivity]
            end
          | apply Hnone; reflexivity
          | eapply Hplain; [reflexivity|reflexivity|discriminate] ].
Qed.

(** ** Calls that cannot be served *)



(** ** Repeated dispatch *)

(** X6.  A notification factory keeps no state between dispatches.
    Calling [sendNotification] on the same factory [n] times in a row
    succeeds every time and prints the same two lines every time: the
    console receives [n] copies of the product's line followed by the
    confirmation line, and the heap [n] products, one per dispatch. *)
Theorem dispatch_repeatable (fuel n : nat) (a : nat) (c : Class) (w : World) :
  notification_factory c = true ->
  nth_error (heap w) a = Some c ->
  exists (p : Class) (line : string),
    implied_product c createNotification = Some p /\
    output_line p = Some line /\
    repeatedly n (call (S (S fuel)) (Ref a) sendNotification) w =
    Normal (repeat undefined n)
      (mkWorld (heap w ++ repeat p n)
         (console w ++
          concat (repeat [line; "Notification registered"] n))).
Proof.
  intros Hf Hc.
  assert (Hp : exists p line,
             implied_product c createNotification = Some p /\
             output_line p = Some line).
  { destruct c; simpl in Hf; try discriminate;
      eexists; eexists; split; reflexivity. }
  destruct Hp as (p & line & Hp & Hl).
  exists p, line. split; [exact Hp|]. split; [exact Hl|].
  revert w Hc. induction n as [|n IH]; intros w Hc.
  - cbn [repeatedly repeat concat]. unfold ret.
    rewrite !app_nil_r. now destruct w.
  - cbn [repeatedly]. unfold bind at 1.
    rewrite (dispatch_step fuel w a c p line Hf Hp Hl Hc).
    unfold bind at 1.
    rewrite IH by (cbn [heap]; now apply nth_error_kept).
    unfold ret. cbn [heap console repeat concat].
    rewrite <- !app_assoc. reflexivity.
Qed.

Lemma dispatch_repeatable_witness :
  exists (p : Class) (line : string),
    implied_product EmailNotificationFactory createNotification = Some p /\
    output_line p = Some line /\
    repeatedly 2 (call 2 (Ref 0) sendNotification)
      (mkWorld [EmailNotificationFactory] []) =
    Normal (repeat undefined 2)
      (mkWorld ([EmailNotificationFactory] ++ repeat p 2)
         ([] ++ concat (repeat [line; "Notification registered"] 2))).
Proof.
  apply (dispatch_repeatable 0 2 0 EmailNotificationFactory
           (mkWorld [EmailNotificationFactory] [])); reflexivity.
Defined.

(** ** Sequences of report steps *)

(** X7.  Create-then-generate steps compose freely.  Any sequence of
    steps on a report factory, of any length and with families repeated or
    left out, succeeds; it prints one line per step, in the order of the
    steps, each the line of the factory's report of that family and tagged
    with the factory's group, and it allocates one report per step. *)
Theorem steps_compose (fuel : nat) (w : World) (a : nat) (g : Group)
    (order : list Family) :
  nth_error (heap w) a = Some (report_factory g) ->
  exists w' : World,
    in_order (S fuel) (Ref a) order w = Normal undefined w' /\
    length (console w') = length (console w) + length order /\
    heap w' = heap w ++ map (report_class g) order /\
    forall (i : nat) (f : Family),
      nth_error order i = Some f ->
      exists line : string,
        nth_error (console w') (length (console w) + i) = Some line /\
        output_line (report_class g f) = Some line /\
        tagged g line = true /\
        tagged (other g) line = false.
Proof.
  intros Hc.
  exists (mkWorld (heap w ++ map (report_class g) order)
                  (console w ++ map (report_line g) order)).
  split; [apply (in_order_run order fuel w a g Hc)|].
  cbn [heap console].
  split; [now rewrite length_app, length_map|].
  split; [reflexivity|].
  intros i f Hi. exists (report_line g f).
  split.
  - rewrite nth_error_app2 by lia.
    replace (length (console w) + i - length (console w)) with i by lia.
    now rewrite nth_error_map, Hi.
  - split; [apply report_line_printed|].
    destruct g, f; split; reflexivity.
Qed.

Lemma steps_compose_witness :
  exists w' : World,
    in_order 1 (Ref 0) [HTML; HTML; PDF] (mkWorld [HRReportFactory] ["earlier"]) =
      Normal undefined w' /\
    length (console w') = 1 + 3 /\
    heap w' = [HRReportFactory] ++ map (report_class HR) [HTML; HTML; PDF] /\
    forall (i : nat) (f : Family),
      nth_error [HTML; HTML; PDF] i = Some f ->
      exists line : string,
        nth_error (console w') (1 + i) = Some line /\
        output_line (report_class HR f) = Some line /\
        tagged HR line = true /\
        tagged Sales line = false.
Proof.
  apply (steps_compose 0 (mkWorld [HRReportFactory] ["earlier"]) 0 HR
           [HTML; HTML; PDF]).
  reflexivity.
Defined.

(** ** What the output tells *)

(** X8.  The lines of a dispatch tell the factory.  If the notification
    client, run on two concrete factories (in whatever states), adds the
    same lines to the console, the two factories are of the same class. *)
Theorem dispatch_output_identifies_factory (fuel1 fuel2 : nat)
    (w1 w2 w1' w2' : World) (a1 a2 : nat) (c1 c2 : Class)
    (lines : list string) :
  notification_factory c1 = true ->
  notification_factory c2 = true ->
  nth_error (heap w1) a1 = Some c1 ->
  nth_error (heap w2) a2 = Some c2 ->
  FactoryMethod.someClientCode (S (S fuel1)) (Ref a1) w1 = Normal undefined w1' ->
  FactoryMethod.someClientCode (S (S fuel2)) (Ref a2) w2 = Normal undefined w2' ->
  console w1' = console w1 ++ lines ->
  console w2' = console w2 ++ lines ->
  c1 = c2.
Proof.
  intros Hf1 Hf2 Hc1 Hc2 Hrun1 Hrun2 Hout1 Hout2.
  assert (Hp : forall c, notification_factory c = true ->
               exists p line,
                 implied_product c createNotification = Some p /\
                 output_line p = Some line).
  { intros c Hf. destruct c; simpl in Hf; try discriminate;
      eexists; eexists; split; reflexivity. }
  destruct (Hp c1 Hf1) as (p1 & l1 & Hp1 & Hl1).
  destruct (Hp c2 Hf2) as (p2 & l2 & Hp2 & Hl2).
  rewrite (notification_client_run fuel1 w1 a1 c1 p1 l1 Hf1 Hp1 Hl1 Hc1) in Hrun1.
  rewrite (notification_client_run fuel2 w2 a2 c2 p2 l2 Hf2 Hp2 Hl2 Hc2) in Hrun2.
  injection Hrun1 as <-. injection Hrun2 as <-.
  cbn [console] in Hout1, Hout2.
  apply app_inv_head in Hout1. apply app_inv_head in Hout2.
  subst lines. injection Hout2 as Hlines.
  assert (Hsame : output_line p1 = output_line p2) by congruence.
  destruct c1; simpl in Hf1; try discriminate;
    destruct c2; simpl in Hf2; try discriminate;
    try reflexivity;
    simpl in Hp1, Hp2; injection Hp1 as <-; injection Hp2 as <-;
    discriminate Hsame.
Qed.

Lemma dispatch_output_identifies_factory_witness :
  PushNotificationFactory = PushNotificationFactory.
Proof.
  apply (dispatch_output_identifies_factory 0 3
           (mkWorld [PushNotificationFactory] [])
           (mkWorld [EmailNotification; PushNotificationFactory] ["earlier"])
           (mkWorld [PushNotificationFactory; PushNotification]
              ["Push notification sent"; "Notification registered"])
           (mkWorld [EmailNotification; PushNotificationFactory; PushNotification]
              ["earlier"; "Push notification sent"; "Notification registered"])
           0 1 PushNotificationFactory PushNotificationFactory
           ["Push notification sent"; "Notification registered"]);
    reflexivity.
Defined.

(** X9.  The lines of the report client tell the group.  If the report
    client, run on two concrete report factories (in whatever states), adds
    the same lines to the console, the two factories are of the same
    group. *)
Theorem report_output_identifies_group (fuel1 fuel2 : nat)
    (w1 w2 w1' w2' : World) (a1 a2 : nat) (g1 g2 : Group)
    (lines : list string) :
  nth_error (heap w1) a1 = Some (report_factory g1) ->
  nth_error (heap w2) a2 = Some (report_factory g2) ->
  AbstractFactory.someClientCode (S fuel1) (Ref a1) w1 = Normal undefined w1' ->
  AbstractFactory.someClientCode (S fuel2) (Ref a2) w2 = Normal undefined w2' ->
  console w1' = console w1 ++ lines ->
  console w2' = console w2 ++ lines ->
  g1 = g2.
Proof.
  intros Hc1 Hc2 Hrun1 Hrun2 Hout1 Hout2.
  rewrite (someClientCode_run fuel1 w1 a1 g1 Hc1) in Hrun1.
  rewrite (someClientCode_run fuel2 w2 a2 g2 Hc2) in Hrun2.
  injection Hrun1 as <-. injection Hrun2 as <-.
  cbn [console] in Hout1, Hout2.
  apply app_inv_head in Hout1. apply app_inv_head in Hout2.
  subst lines.
  destruct g1, g2; try reflexivity; discriminate Hout2.
Qed.

Lemma report_output_identifies_group_witness :
  Sales = Sales.
Proof.
  apply (report_output_identifies_group 0 1
           (mkWorld [SalesReportFactory] [])
           (mkWorld [HRReportFactory; SalesReportFactory] ["earlier"])
           (mkWorld [SalesReportFactory; SalesPDFReport; SalesExcelReport;
                     SalesHTMLReport]
              ["Sales PDF report generated"; "Sales Excel report generated";
               "Sales HTML report generated"])
           (mkWorld [HRReportFactory; SalesReportFactory; SalesPDFReport;
                     SalesExcelReport; SalesHTMLReport]
              ["earlier"; "Sales PDF report generated";
               "Sales Excel report generated"; "Sales HTML report generated"])
           0 1 Sales Sales
           ["Sales PDF report generated"; "Sales Excel report generated";
            "Sales HTML report generated"]);
    reflexivity.
Defined.
